(** * ElasticsearchDAO: URI-keyed synchronisation of terms into Elasticsearch

    A shallow embedding of [src/lib/ElasticsearchDAO.ts].

    - JavaScript values that travel to the engine (directives, payloads,
      stored documents) are [Json] trees; an object literal is the list of
      its properties in source order.
    - The [elasticsearch.Client] is an interface: the class [Engine] gives
      the answers of the awaited primitives ([indices.exists], [search]) on
      an engine state and the effect of the writes ([indices.create],
      [bulk]) on it.
    - The methods of the DAO are computations in [DAO], a state monad over
      the engine state and the list of effects issued so far, in program
      order.
    - Node-style callbacks run on a later turn of the event loop; each is a
      function from the response it receives to the effects it performs.
      The main flow of a method is described for the runs in which no
      callback has ended the process in the meantime, and in which awaited
      promises are fulfilled.
    - The module [Async], further down, embeds the methods again for a
      service that can reject a request and that completes a creation when
      it decides. *)

From Stdlib Require Import ZArith String Ascii List Bool Lia.
From stdpp Require Import base list strings.
Import ListNotations.
Open Scope string_scope.

(** ** JavaScript values *)

#[warnings="-register-all"]
Inductive Json : Type :=
| JNull
| JBool (b : bool)
| JNum (n : Z)
| JStr (s : string)
| JArr (items : list Json)
| JObj (fields : list (string * Json)).

(** Own property names of a value, in insertion order. *)
Definition keys (o : Json) : list string :=
  match o with
  | JObj fields => map fst fields
  | _ => []
  end.

Fixpoint assoc (k : string) (fields : list (string * Json)) : option Json :=
  match fields with
  | [] => None
  | (k', v) :: rest => if String.eqb k k' then Some v else assoc k rest
  end.

(** Property access [o.k]; [None] is [undefined]. *)
Definition get (k : string) (o : Json) : option Json :=
  match o with
  | JObj fields => assoc k fields
  | _ => None
  end.

(** [v === s] for a string [s]: no coercion, so only a string compares equal. *)
Definition strict_eq_string (v : option Json) (s : string) : bool :=
  match v with
  | Some (JStr t) => String.eqb t s
  | _ => false
  end.

(** [!id] for [id : string | null]: [null] and the empty string are falsy. *)
Definition not_id (id : option string) : bool :=
  match id with
  | None => true
  | Some s => String.eqb s ""
  end.

(** The value of [id] when it is written into an object literal. *)
Definition of_id (id : option string) : Json :=
  match id with
  | Some s => JStr s
  | None => JNull
  end.

(** [if (error)] for a callback's first argument: an error object or nothing. *)
Definition is_error {A : Type} (error : option A) : bool :=
  match error with
  | Some _ => true
  | None => false
  end.

(** [bulk.push(x)] *)
Definition push {A : Type} (arr : list A) (x : A) : list A := arr ++ [x].

(** ** Records and hits *)

(** Modelled from the spec: the interface [ITerm] is declared in [./Term],
    which is not among the sources. The spec (data model, Record) gives it a
    URI, a preferred label, a definition and a context; [URI] is a string
    because it is passed to [getId(uri: string, ...)]. *)
Record ITerm : Type := {
  prefLabel : string;
  URI : string;
  definition : string;
  context : string
}.

(** The term as the object that [bulk.push(term)] puts in the request body. *)
Definition term_obj (term : ITerm) : Json :=
  JObj [("prefLabel", JStr (prefLabel term));
        ("URI", JStr (URI term));
        ("definition", JStr (definition term));
        ("context", JStr (context term))].

(** One element of [result.hits.hits]. *)
Record Hit : Type := {
  _id : string;
  _source : Json
}.

(** Configuration read from [../config.json]. *)
Record Config : Type := {
  ELASTIC_ENDPOINT : string;
  USERNAME : string;
  PASSWORD : string
}.

(** The handle built by [new elasticsearch.Client({...})]. *)
Record Client : Type := {
  host : string;
  httpAuth : string;
  rejectUnauthorized : bool
}.

(** ** Effects *)

Inductive Effect : Type :=
| Ping (requestTimeout : Z)
| IndicesExists (index : string)
| IndicesCreate (index : string)
| Search (index type uri : string)
| Bulk (body : list Json)
| ConsoleLog (args : list Json)
| ConsoleError (args : list Json)
| ProcessExit (code : Z).

(** The engine behind the client. *)
Class Engine (E : Type) : Type := {
  indices_exists : E -> string -> bool;
  indices_create : E -> string -> E;
  search : E -> string -> string -> string -> list Hit;
  bulk_write : E -> list Json -> E
}.

(** ** The DAO monad *)

Record World (E : Type) : Type := mkWorld {
  engine : E;
  issued : list Effect
}.
Arguments mkWorld {E} _ _.
Arguments engine {E} _.
Arguments issued {E} _.

Definition DAO (E A : Type) : Type := World E -> A * World E.

Definition ret {E A : Type} (a : A) : DAO E A := fun w => (a, w).

Definition bind {E A B : Type} (m : DAO E A) (k : A -> DAO E B) : DAO E B :=
  fun w => let (a, w') := m w in k a w'.

Notation "x <- m ;; k" := (bind m (fun x => k))
  (at level 100, m at next level, right associativity).
Notation "m ;;; k" := (bind m (fun _ => k))
  (at level 100, right associativity).

(** A world in which nothing has been issued yet. *)
Definition fresh {E : Type} (e : E) : World E := mkWorld e [].

(** [for (let x of xs) { ... }] updating the local state [s]. *)
Fixpoint for_of {E A S : Type} (xs : list A) (body : A -> S -> DAO E S)
  (s : S) : DAO E S :=
  match xs with
  | [] => ret s
  | x :: rest => s' <- body x s ;; for_of rest body s'
  end.

Section DAO.

Context {E : Type} `{Engine E}.
Variable config : Config.

(** *** Primitives of the client *)

Definition emit (ev : Effect) : DAO E unit :=
  fun w => (tt, mkWorld (engine w) (issued w ++ [ev])).

Definition client_ping (client : Client) (requestTimeout : Z) : DAO E unit :=
  emit (Ping requestTimeout).

Definition client_indices_exists (client : Client) (index : string) : DAO E bool :=
  fun w => (indices_exists (engine w) index,
            mkWorld (engine w) (issued w ++ [IndicesExists index])).

Definition client_indices_create (client : Client) (index : string) : DAO E unit :=
  fun w => (tt, mkWorld (indices_create (engine w) index)
                        (issued w ++ [IndicesCreate index])).

Definition client_search (client : Client) (index type uri : string)
  : DAO E (list Hit) :=
  fun w => (search (engine w) index type uri,
            mkWorld (engine w) (issued w ++ [Search index type uri])).

Definition client_bulk (client : Client) (body : list Json) : DAO E unit :=
  fun w => (tt, mkWorld (bulk_write (engine w) body) (issued w ++ [Bulk body])).

Definition console_log (args : list Json) : DAO E unit := emit (ConsoleLog args).

(** *** Callbacks *)

Definition ESC : string := String (ascii_of_nat 27) "".

(** The callback given to [client.ping]. *)
Definition pingCallback (error : option Json) : list Effect :=
  if is_error error then
    if is_error error then
      [ConsoleError [JStr (ESC ++ "[31m%s" ++ ESC ++ "[0m ");
                     JStr "Elasticsearch cluster is down"];
       ProcessExit 1]
    else
      [ConsoleLog [JStr (ESC ++ "[32m%s" ++ ESC ++ "[0m ");
                   JStr "Elasticsearch cluster/client is running"]]
  else [].

(** The callback given to [client.indices.create]. *)
Definition createIndexCallback (name : string) (error : option Json)
  (response : Json) : list Effect :=
  match error with
  | Some err => [ConsoleLog [err]]
  | None =>
      [ConsoleLog [JStr ("[ElasticsearchDAO]: created a new index: " ++ name);
                   response]]
  end.

(** The callback given to [client.bulk] by the two update methods. *)
Definition updateBulkCallback (err : option Json) (response : Json)
  : list Effect :=
  match err with
  | Some e => [ConsoleLog [JStr "[ElasticsearchDAO]: failed Bulk Update "; e]]
  | None => [ConsoleLog [JStr "[ElasticsearchDAO]: updated succeeded"]]
  end.

(** The callback given to [client.bulk] by [pushDataInBulk]. *)
Definition pushBulkCallback (data : list ITerm) (err : option Json)
  (response : Json) : list Effect :=
  match err with
  | Some e => [ConsoleLog [JStr "[ElasticsearchDAO]: failed bulk operation "; e]]
  | None =>
      [ConsoleLog [JStr "[ElasticsearchDAO]: successfully imported ";
                   JNum (Z.of_nat (length data))]]
  end.

(** *** Methods *)

(** [new elasticsearch.Client({host, httpAuth, ssl})] *)
Definition newClient : Client :=
  {| host := ELASTIC_ENDPOINT config;
     httpAuth := USERNAME config ++ ":" ++ PASSWORD config;
     rejectUnauthorized := false |}.

Definition connectToElasticsearch : DAO E Client :=
  let client := newClient in
  client_ping client 30000 ;;;
  ret client.

Definition checkIfIndexExists (client : Client) (index : string) : DAO E bool :=
  exists_ <- client_indices_exists client index ;;
  ret exists_.

Definition createIndex (client : Client) (name : string) : DAO E unit :=
  client_indices_create client name.

(** The exact-match post-filter of [getId]:
    [hits.find(obj => obj._source.URI === uri) || null], then
    [object ? object._id : null]. *)
Definition exactHit (hits : list Hit) (uri : string) : option Hit :=
  find (fun obj => strict_eq_string (get "URI" (_source obj)) uri) hits.

Definition getId (uri index type : string) (client : Client)
  : DAO E (option string) :=
  hits <- client_search client index type uri ;;
  let object := exactHit hits uri in
  ret (match object with
       | Some obj => Some (_id obj)
       | None => None
       end).

Definition updateVocabulary (data : list ITerm) : DAO E unit :=
  client <- connectToElasticsearch ;;
  bulk <- for_of data (fun term bulk =>
    id <- getId (URI term) "oslo-terminology" "vocabularies" client ;;
    if not_id id then
      let bulk := push bulk
        (JObj [("index", JObj [("_index", JStr "oslo-terminology");
                               ("_type", JStr "vocabularies")])]) in
      ret (push bulk (term_obj term))
    else
      let bulk := push bulk
        (JObj [("update", JObj [("_index", JStr "oslo-terminology");
                                ("_type", JStr "vocabularies");
                                ("_id", of_id id)])]) in
      ret (push bulk
        (JObj [("doc", JObj [("prefLabel", JStr (prefLabel term));
                             ("URI", JStr (URI term));
                             ("definition", JStr (definition term));
                             ("context", JStr (context term))])]))) [] ;;
  client_bulk client bulk.

Definition updateApplicationProfile (data : list ITerm) : DAO E unit :=
  client <- connectToElasticsearch ;;
  bulk <- for_of data (fun term bulk =>
    id <- getId (URI term) "oslo-application-profiles" "classes" client ;;
    if not_id id then
      let bulk := push bulk
        (JObj [("index", JObj [("_index", JStr "oslo-application-profiles");
                               ("_type", JStr "classes")])]) in
      ret (push bulk (term_obj term))
    else
      let bulk := push bulk
        (JObj [("update", JObj [("_index", JStr "oslo-application-profiles");
                                ("_type", JStr "classes");
                                ("_id", of_id id)])]) in
      ret (push bulk
        (JObj [("doc", JObj [("prefLabel", JStr (prefLabel term));
                             ("URI", JStr (URI term));
                             ("definition", JStr (definition term));
                             ("context", JStr (context term))])]))) [] ;;
  client_bulk client bulk.

Definition pushDataInBulk (client : Client) (type index : string)
  (data : list ITerm) : DAO E unit :=
  bulk <- for_of data (fun term bulk =>
    id <- getId (URI term) index type client ;;
    if not_id id then
      let bulk := push bulk
        (JObj [("index", JObj [("_index", JStr index);
                               ("_type", JStr type)])]) in
      ret (push bulk (term_obj term))
    else ret bulk) [] ;;
  if negb (Nat.eqb (length bulk) 0) then client_bulk client bulk
  else ret tt.

Definition setupElasticsearch : DAO E unit :=
  client <- connectToElasticsearch ;;
  terminologyIndexExists <- checkIfIndexExists client "oslo-terminology" ;;
  applicationProfileIndexExists <-
    checkIfIndexExists client "oslo-application-profiles" ;;
  (if negb terminologyIndexExists then
     console_log [JStr "[ElasticsearchDAO]: oslo-terminology index does not exist on setup. Creating it. "] ;;;
     createIndex client "oslo-terminology"
   else ret tt) ;;;
  (if negb applicationProfileIndexExists then
     console_log [JStr "[ElasticsearchDAO]: oslo-application-profiles index does not exist on setup. Creating it. "] ;;;
     createIndex client "oslo-application-profiles"
   else ret tt).

Definition pushData (data : list ITerm) (index type : string) : DAO E unit :=
  client <- connectToElasticsearch ;;
  indexExists <- checkIfIndexExists client index ;;
  (if negb indexExists then
     console_log [JStr ("[ElasticsearchDAO]: " ++ index ++ " does not exist yet. Creating it.")] ;;;
     createIndex client index
   else ret tt) ;;;
  pushDataInBulk client type index data.

End DAO.

(** ** Reading a run *)

(** The bodies of the bulk writes among the effects, in order. *)
Definition bulk_bodies (evs : list Effect) : list (list Json) :=
  omap (fun ev => match ev with Bulk body => Some body | _ => None end) evs.

(** The names of the indices whose creation was requested, in order. *)
Definition created (evs : list Effect) : list string :=
  omap (fun ev => match ev with IndicesCreate name => Some name | _ => None end) evs.

(** A directive of a bulk body: an object with the single property [op],
    whose value is an object ([{index: {...}}], [{update: {...}}]). *)
Definition is_directive (op : string) (entry : Json) : bool :=
  match entry with
  | JObj [(k, JObj _)] => String.eqb k op
  | _ => false
  end.


(** ** The bulk lists, record by record *)

Section Reconcile.

Context {E : Type} `{Engine E}.
Variable config : Config.

(** What [getId] returns on an engine state. *)
Definition resolve (e : E) (index type uri : string) : option string :=
  match exactHit (search e index type uri) uri with
  | Some obj => Some (_id obj)
  | None => None
  end.

(** A record resolves to an existing identifier when the identifier that
    [getId] returns passes the caller's own test ([id] is truthy: it is not
    [null], and it is not the empty string). *)
Definition resolves (e : E) (index type : string) (term : ITerm) : bool :=
  negb (not_id (resolve e index type (URI term))).

Definition insertPair (index type : string) (term : ITerm) : list Json :=
  [JObj [("index", JObj [("_index", JStr index); ("_type", JStr type)])];
   term_obj term].

Definition updatePair (index type : string) (id : option string)
  (term : ITerm) : list Json :=
  [JObj [("update", JObj [("_index", JStr index); ("_type", JStr type);
                          ("_id", of_id id)])];
   JObj [("doc", JObj [("prefLabel", JStr (prefLabel term));
                       ("URI", JStr (URI term));
                       ("definition", JStr (definition term));
                       ("context", JStr (context term))])]].

(** The directive and the payload of one record on the full-sync path. *)
Definition fullSyncPair (e : E) (index type : string) (term : ITerm)
  : list Json :=
  let id := resolve e index type (URI term) in
  if not_id id then insertPair index type term
  else updatePair index type id term.

(** The entries of one record on the plain-push path. *)
Definition plainPushPair (e : E) (index type : string) (term : ITerm)
  : list Json :=
  if not_id (resolve e index type (URI term)) then insertPair index type term
  else [].

Definition fullSyncBulk (e : E) (index type : string) (data : list ITerm)
  : list Json :=
  flat_map (fullSyncPair e index type) data.

Definition plainPushBulk (e : E) (index type : string) (data : list ITerm)
  : list Json :=
  flat_map (plainPushPair e index type) data.

(** The records of a batch that do not resolve. *)
Definition unresolved (e : E) (index type : string) (data : list ITerm)
  : list ITerm :=
  List.filter (fun term => negb (resolves e index type term)) data.

(** The queries of a batch, one per record, in input order. *)
Definition searches (index type : string) (data : list ITerm) : list Effect :=
  map (fun term => Search index type (URI term)) data.

(** The reconciliation of the design, for any collection and record kind:
    resolve each record in input order; append an insert directive and the
    record when it is unresolved, an update directive and the partial
    document when it resolved; submit the list as one bulk write. *)
Definition reconcile (index type : string) (data : list ITerm) : DAO E unit :=
  client <- connectToElasticsearch config ;;
  bulk <- for_of data (fun term bulk =>
    id <- getId (URI term) index type client ;;
    ret (bulk ++ (if not_id id then insertPair index type term
                  else updatePair index type id term))%list) [] ;;
  client_bulk client bulk.

(** A directive pointed at another collection and record kind: its first
    two properties, [_index] and [_type], are replaced; payloads are kept. *)
Definition retarget (index type : string) (entry : Json) : Json :=
  match entry with
  | JObj [(op, JObj (_ :: _ :: rest))] =>
      if is_directive "index" entry || is_directive "update" entry then
        JObj [(op, JObj (("_index", JStr index) :: ("_type", JStr type) :: rest))]
      else entry
  | _ => entry
  end.

(** What an update pair at position [i] of a bulk body owes to its record:
    the directive targets the identifier of the exact hit, the payload is a
    partial document with the four properties of the record and nothing
    else, and the URI it writes is the URI that the hit already stores. *)
Definition update_scope (e : E) (index type : string) (body : list Json)
  (i : nat) (term : ITerm) : Prop :=
  exists (obj : Hit) (doc : Json),
    exactHit (search e index type (URI term)) (URI term) = Some obj /\
    body !! (2 * i) =
      Some (JObj [("update", JObj [("_index", JStr index);
                                   ("_type", JStr type);
                                   ("_id", JStr (_id obj))])]) /\
    body !! (2 * i + 1) = Some (JObj [("doc", doc)]) /\
    keys doc = ["prefLabel"; "URI"; "definition"; "context"] /\
    ~ In "_id" (keys doc) /\
    get "prefLabel" doc = Some (JStr (prefLabel term)) /\
    get "URI" doc = Some (JStr (URI term)) /\
    get "definition" doc = Some (JStr (definition term)) /\
    get "context" doc = Some (JStr (context term)) /\
    get "URI" doc = get "URI" (_source obj).

End Reconcile.

(** ** A scripted engine for the examples

    The state lists the indices that exist and the stored documents with
    their index and type. The match query is approximate: it returns every
    document of the index and type whose URI starts with the queried text.
    Creating an index adds its name; the examples read the documents only
    before the bulk write, which leaves them as they are. *)

Record Scripted : Type := {
  present : list string;
  stored : list (string * string * Hit)
}.

Definition stored_uri (obj : Hit) : string :=
  match get "URI" (_source obj) with
  | Some (JStr s) => s
  | _ => ""
  end.

#[export] Instance scripted_engine : Engine Scripted := {
  indices_exists e index := existsb (String.eqb index) (present e);
  indices_create e index := {| present := index :: present e; stored := stored e |};
  search e index type uri :=
    map snd
      (List.filter
         (fun '(i, t, obj) =>
            String.eqb i index && String.eqb t type
            && String.prefix uri (stored_uri obj))
         (stored e));
  bulk_write e body := e
}.

Definition hit (id uri : string) : Hit :=
  {| _id := id; _source := JObj [("URI", JStr uri)] |}.

Definition mkTerm (uri label : string) : ITerm :=
  {| prefLabel := label; URI := uri; definition := "d"; context := "c" |}.

Definition cfg : Config :=
  {| ELASTIC_ENDPOINT := "localhost:9200"; USERNAME := "u"; PASSWORD := "p" |}.

Definition some_client : Client :=
  {| host := "localhost:9200"; httpAuth := "u:p"; rejectUnauthorized := false |}.

(** The result set of the resolve-exactness property: URIs a, ab, a. *)
Definition vocab_a_ab_a : Scripted :=
  {| present := ["oslo-terminology"; "oslo-application-profiles"];
     stored := [("oslo-terminology", "vocabularies", hit "id1" "a");
                ("oslo-terminology", "vocabularies", hit "id2" "ab");
                ("oslo-terminology", "vocabularies", hit "id3" "a");
                ("oslo-application-profiles", "classes", hit "id4" "c")] |}.

(** Only an approximate match for the URI a. *)
Definition vocab_ab : Scripted :=
  {| present := ["oslo-terminology"];
     stored := [("oslo-terminology", "vocabularies", hit "id2" "ab")] |}.

(** An exact hit for the URI a whose identifier is the empty string. *)
Definition vocab_empty_id : Scripted :=
  {| present := ["oslo-terminology"];
     stored := [("oslo-terminology", "vocabularies", hit "" "a")] |}.

(** The same document, under the same identifier, in both collections. *)
Definition mirrored : Scripted :=
  {| present := ["oslo-terminology"; "oslo-application-profiles"];
     stored := [("oslo-terminology", "vocabularies", hit "id1" "a");
                ("oslo-application-profiles", "classes", hit "id1" "a")] |}.

Definition batch : list ITerm :=
  [mkTerm "a" "first"; mkTerm "b" "second"; mkTerm "ab" "third"].

(** ** Further readers and examples *)

(** [obj._source.URI === uri], the test of the post-filter of [getId]. *)
Definition is_exact (uri : string) (obj : Hit) : bool :=
  strict_eq_string (get "URI" (_source obj)) uri.

(** The object that a directive carries under its single property. *)
Definition directive_target (entry : Json) : option Json :=
  match entry with
  | JObj [(_, target)] => Some target
  | _ => None
  end.

(** An approximate hit comes first in the result set for the URI a. *)
Definition vocab_ab_a_a : Scripted :=
  {| present := ["oslo-terminology"];
     stored := [("oslo-terminology", "vocabularies", hit "id2" "ab");
                ("oslo-terminology", "vocabularies", hit "id1" "a");
                ("oslo-terminology", "vocabularies", hit "id3" "a")] |}.

(** No index and no document yet. *)
Definition blank : Scripted := {| present := []; stored := [] |}.


(** The answer of [getId] for the URI of a record, on an engine state. *)
Definition answer {E : Type} `{Engine E} (e : E) (client : Client)
  (index type : string) (term : ITerm) : option string :=
  fst (getId (URI term) index type client (fresh e)).



(** Position [i] of a bulk body holds a directive followed by an entry
    that is not a directive. *)
Definition pair_at (body : list Json) (i : nat) : Prop :=
  exists d p,
    body !! (2 * i) = Some d /\ body !! (2 * i + 1) = Some p /\
    (is_directive "index" d || is_directive "update" d) = true /\
    (is_directive "index" p || is_directive "update" p) = false.

(** A directive that addresses the given index and type. *)
Definition addresses (index type : string) (d : Json) : Prop :=
  exists target,
    directive_target d = Some target /\
    get "_index" target = Some (JStr index) /\
    get "_type" target = Some (JStr type).

(** A directive whose [_id] is the identifier, not empty, of the exact hit
    that the engine returns for the URI of a record of the batch. *)
Definition targets_hit_of {E : Type} `{Engine E} (e : E)
  (index type : string) (data : list ITerm) (d : Json) : Prop :=
  exists term obj target,
    In term data /\
    exactHit (search e index type (URI term)) (URI term) = Some obj /\
    _id obj <> "" /\
    directive_target d = Some target /\
    get "_id" target = Some (JStr (_id obj)).

(** ** The methods when requests are rejected or complete later

    The embedding above follows a method along the run in which every
    awaited promise is fulfilled and a creation is in place as soon as it is
    requested. [Async] embeds the same methods without these two
    assumptions:
    - the service answers one request at a time and hands back its state
      after the request, so what was requested earlier (an index creation)
      completes when the service decides, and a later request can be
      answered differently;
    - an awaited request ([indices.exists], [search]) can be rejected; the
      [await] then throws, and the promise of the method is rejected with
      nothing more of its body run. *)

Module Async.

Class Service (E : Type) : Type := {
  exists_answer : E -> string -> option bool * E;
  create_request : E -> string -> E;
  search_answer : E -> string -> string -> string -> option (list Hit) * E;
  bulk_request : E -> list Json -> E
}.

(** [None] is a rejected promise. *)
Definition DAO (E A : Type) : Type := World E -> option A * World E.

Definition ret {E A : Type} (a : A) : DAO E A := fun w => (Some a, w).

Definition bind {E A B : Type} (m : DAO E A) (k : A -> DAO E B) : DAO E B :=
  fun w =>
    match m w with
    | (Some a, w') => k a w'
    | (None, w') => (None, w')
    end.

Notation "x <~ m ;; k" := (bind m (fun x => k))
  (at level 100, m at next level, right associativity).
Notation "m ;;~ k" := (bind m (fun _ => k))
  (at level 100, right associativity).

(** A call whose promise is not awaited: the caller goes on, whatever
    becomes of the call. *)
Definition detached {E A : Type} (m : DAO E A) : DAO E unit :=
  fun w => (Some tt, snd (m w)).

Fixpoint for_of {E A S : Type} (xs : list A) (body : A -> S -> DAO E S)
  (s : S) : DAO E S :=
  match xs with
  | [] => ret s
  | x :: rest => s' <~ body x s ;; for_of rest body s'
  end.

Section Methods.

Context {E : Type} `{Service E}.
Variable config : Config.

Definition emit (ev : Effect) : DAO E unit :=
  fun w => (Some tt, mkWorld (engine w) (issued w ++ [ev])).

Definition client_ping (client : Client) (requestTimeout : Z) : DAO E unit :=
  emit (Ping requestTimeout).

Definition client_indices_exists (client : Client) (index : string)
  : DAO E bool :=
  fun w =>
    let (answer, e') := exists_answer (engine w) index in
    (answer, mkWorld e' (issued w ++ [IndicesExists index])).

Definition client_indices_create (client : Client) (index : string)
  : DAO E unit :=
  fun w => (Some tt, mkWorld (create_request (engine w) index)
                       (issued w ++ [IndicesCreate index])).

Definition client_search (client : Client) (index type uri : string)
  : DAO E (list Hit) :=
  fun w =>
    let (answer, e') := search_answer (engine w) index type uri in
    (answer, mkWorld e' (issued w ++ [Search index type uri])).

Definition client_bulk (client : Client) (body : list Json) : DAO E unit :=
  fun w => (Some tt, mkWorld (bulk_request (engine w) body)
                       (issued w ++ [Bulk body])).

Definition console_log (args : list Json) : DAO E unit := emit (ConsoleLog args).

Definition connectToElasticsearch : DAO E Client :=
  let client := newClient config in
  client_ping client 30000 ;;~
  ret client.

Definition checkIfIndexExists (client : Client) (index : string) : DAO E bool :=
  exists_ <~ client_indices_exists client index ;;
  ret exists_.

Definition createIndex (client : Client) (name : string) : DAO E unit :=
  client_indices_create client name.

Definition getId (uri index type : string) (client : Client)
  : DAO E (option string) :=
  hits <~ client_search client index type uri ;;
  let object := exactHit hits uri in
  ret (match object with
       | Some obj => Some (_id obj)
       | None => None
       end).

Definition updateVocabulary (data : list ITerm) : DAO E unit :=
  client <~ connectToElasticsearch ;;
  bulk <~ for_of data (fun term bulk =>
    id <~ getId (URI term) "oslo-terminology" "vocabularies" client ;;
    if not_id id then
      let bulk := push bulk
        (JObj [("index", JObj [("_index", JStr "oslo-terminology");
                               ("_type", JStr "vocabularies")])]) in
      ret (push bulk (term_obj term))
    else
      let bulk := push bulk
        (JObj [("update", JObj [("_index", JStr "oslo-terminology");
                                ("_type", JStr "vocabularies");
                                ("_id", of_id id)])]) in
      ret (push bulk
        (JObj [("doc", JObj [("prefLabel", JStr (prefLabel term));
                             ("URI", JStr (URI term));
                             ("definition", JStr (definition term));
                             ("context", JStr (context term))])]))) [] ;;
  client_bulk client bulk.

Definition updateApplicationProfile (data : list ITerm) : DAO E unit :=
  client <~ connectToElasticsearch ;;
  bulk <~ for_of data (fun term bulk =>
    id <~ getId (URI term) "oslo-application-profiles" "classes" client ;;
    if not_id id then
      let bulk := push bulk
        (JObj [("index", JObj [("_index", JStr "oslo-application-profiles");
                               ("_type", JStr "classes")])]) in
      ret (push bulk (term_obj term))
    else
      let bulk := push bulk
        (JObj [("update", JObj [("_index", JStr "oslo-application-profiles");
                                ("_type", JStr "classes");
                                ("_id", of_id id)])]) in
      ret (push bulk
        (JObj [("doc", JObj [("prefLabel", JStr (prefLabel term));
                             ("URI", JStr (URI term));
                             ("definition", JStr (definition term));
                             ("context", JStr (context term))])]))) [] ;;
  client_bulk client bulk.

Definition pushDataInBulk (client : Client) (type index : string)
  (data : list ITerm) : DAO E unit :=
  bulk <~ for_of data (fun term bulk =>
    id <~ getId (URI term) index type client ;;
    if not_id id then
      let bulk := push bulk
        (JObj [("index", JObj [("_index", JStr index);
                               ("_type", JStr type)])]) in
      ret (push bulk (term_obj term))
    else ret bulk) [] ;;
  if negb (Nat.eqb (length bulk) 0) then client_bulk client bulk
  else ret tt.

Definition setupElasticsearch : DAO E unit :=
  client <~ connectToElasticsearch ;;
  terminologyIndexExists <~ checkIfIndexExists client "oslo-terminology" ;;
  applicationProfileIndexExists <~
    checkIfIndexExists client "oslo-application-profiles" ;;
  (if negb terminologyIndexExists then
     console_log [JStr "[ElasticsearchDAO]: oslo-terminology index does not exist on setup. Creating it. "] ;;~
     createIndex client "oslo-terminology"
   else ret tt) ;;~
  (if negb applicationProfileIndexExists then
     console_log [JStr "[ElasticsearchDAO]: oslo-application-profiles index does not exist on setup. Creating it. "] ;;~
     createIndex client "oslo-application-profiles"
   else ret tt).

Definition pushData (data : list ITerm) (index type : string) : DAO E unit :=
  client <~ connectToElasticsearch ;;
  indexExists <~ checkIfIndexExists client index ;;
  (if negb indexExists then
     console_log [JStr ("[ElasticsearchDAO]: " ++ index ++ " does not exist yet. Creating it.")] ;;~
     createIndex client index
   else ret tt) ;;~
  detached (pushDataInBulk client type index data).

End Methods.

End Async.

(** An engine of the first embedding as a service: no request is rejected,
    a read leaves the state as it is, a creation is in place at once. *)
Definition settled {E : Type} `{Engine E} : Async.Service E :=
  {| Async.exists_answer e index := (Some (indices_exists e index), e);
     Async.create_request := indices_create;
     Async.search_answer e index type uri := (Some (search e index type uri), e);
     Async.bulk_request := bulk_write |}.

(** A scripted service for the examples: it answers [patience] searches and
    rejects the later ones; it also rejects a search on an index that does
    not exist, and a creation that is requested is not completed while the
    method runs. *)
Record Flaky : Type := {
  base : Scripted;
  patience : nat
}.

#[export] Instance flaky_service : Async.Service Flaky := {
  Async.exists_answer f index := (Some (indices_exists (base f) index), f);
  Async.create_request f index := f;
  Async.search_answer f index type uri :=
    match patience f with
    | 0 => (None, f)
    | S n =>
        if indices_exists (base f) index then
          (Some (search (base f) index type uri),
           {| base := base f; patience := n |})
        else (None, f)
    end;
  Async.bulk_request f body := f
}.



(** ** Runs of the methods *)

Local Open Scope list_scope.

Section Runs.

Context {E : Type} `{Engine E}.
Variable config : Config.

Lemma getId_run (uri index type : string) (client : Client) (w : World E) :
  getId uri index type client w =
  (resolve (engine w) index type uri,
   mkWorld (engine w) (issued w ++ [Search index type uri])).
Proof. reflexivity. Qed.

(** A loop whose body appends the entries of its record and issues one
    effect appends the entries of all records, in input order. *)
Lemma for_of_run (body : ITerm -> list Json -> DAO E (list Json))
  (pair : E -> ITerm -> list Json) (ev : ITerm -> Effect) :
  (forall term acc w,
      body term acc w =
      (acc ++ pair (engine w) term,
       mkWorld (engine w) (issued w ++ [ev term]))) ->
  forall data acc w,
    for_of data body acc w =
    (acc ++ flat_map (pair (engine w)) data,
     mkWorld (engine w) (issued w ++ map ev data)).
Proof.
  intros Hstep data. induction data as [|term rest IH]; intros acc w; simpl.
  - unfold ret. rewrite !app_nil_r. now destruct w.
  - unfold bind. rewrite Hstep, IH. simpl.
    now rewrite <- !app_assoc.
Qed.

Lemma reconcile_step (client : Client) (index type : string) (term : ITerm)
  (acc : list Json) (w : World E) :
  (id <- getId (URI term) index type client ;;
   ret (acc ++ (if not_id id then insertPair index type term
                else updatePair index type id term))%list) w =
  (acc ++ fullSyncPair (engine w) index type term,
   mkWorld (engine w) (issued w ++ [Search index type (URI term)])).
Proof. reflexivity. Qed.

Lemma reconcile_run (index type : string) (data : list ITerm) (w : World E) :
  reconcile config index type data w =
  let body := fullSyncBulk (engine w) index type data in
  (tt, mkWorld (bulk_write (engine w) body)
         (issued w ++ Ping 30000 :: searches index type data ++ [Bulk body])).
Proof.
  unfold reconcile, connectToElasticsearch, client_ping, emit, bind, ret.
  cbn iota beta.
  rewrite (for_of_run _ (fun e => fullSyncPair e index type)
             (fun term => Search index type (URI term)))
    by (intros; apply (reconcile_step (newClient config))).
  unfold client_bulk, fullSyncBulk, searches. simpl.
  now rewrite <- !app_assoc.
Qed.

(** The two update methods push the two entries of a record one by one. *)
Lemma updateVocabulary_step (client : Client) (term : ITerm)
  (acc : list Json) (w : World E) :
  (id <- getId (URI term) "oslo-terminology" "vocabularies" client ;;
   if not_id id then
     let bulk := push acc
       (JObj [("index", JObj [("_index", JStr "oslo-terminology");
                              ("_type", JStr "vocabularies")])]) in
     ret (push bulk (term_obj term))
   else
     let bulk := push acc
       (JObj [("update", JObj [("_index", JStr "oslo-terminology");
                               ("_type", JStr "vocabularies");
                               ("_id", of_id id)])]) in
     ret (push bulk
       (JObj [("doc", JObj [("prefLabel", JStr (prefLabel term));
                            ("URI", JStr (URI term));
                            ("definition", JStr (definition term));
                            ("context", JStr (context term))])]))) w =
  (acc ++ fullSyncPair (engine w) "oslo-terminology" "vocabularies" term,
   mkWorld (engine w)
     (issued w ++ [Search "oslo-terminology" "vocabularies" (URI term)])).
Proof.
  unfold bind. rewrite getId_run. unfold fullSyncPair, push, ret.
  destruct (not_id _); simpl; now rewrite <- app_assoc.
Qed.

Lemma updateApplicationProfile_step (client : Client) (term : ITerm)
  (acc : list Json) (w : World E) :
  (id <- getId (URI term) "oslo-application-profiles" "classes" client ;;
   if not_id id then
     let bulk := push acc
       (JObj [("index", JObj [("_index", JStr "oslo-application-profiles");
                              ("_type", JStr "classes")])]) in
     ret (push bulk (term_obj term))
   else
     let bulk := push acc
       (JObj [("update", JObj [("_index", JStr "oslo-application-profiles");
                               ("_type", JStr "classes");
                               ("_id", of_id id)])]) in
     ret (push bulk
       (JObj [("doc", JObj [("prefLabel", JStr (prefLabel term));
                            ("URI", JStr (URI term));
                            ("definition", JStr (definition term));
                            ("context", JStr (context term))])]))) w =
  (acc ++ fullSyncPair (engine w) "oslo-application-profiles" "classes" term,
   mkWorld (engine w)
     (issued w ++ [Search "oslo-application-profiles" "classes" (URI term)])).
Proof.
  unfold bind. rewrite getId_run. unfold fullSyncPair, push, ret.
  destruct (not_id _); simpl; now rewrite <- app_assoc.
Qed.

Lemma updateVocabulary_run (data : list ITerm) (w : World E) :
  updateVocabulary config data w =
  let body := fullSyncBulk (engine w) "oslo-terminology" "vocabularies" data in
  (tt, mkWorld (bulk_write (engine w) body)
         (issued w ++ Ping 30000
            :: searches "oslo-terminology" "vocabularies" data ++ [Bulk body])).
Proof.
  unfold updateVocabulary, connectToElasticsearch, client_ping, emit, bind, ret.
  cbn iota beta.
  rewrite (for_of_run _ (fun e => fullSyncPair e "oslo-terminology" "vocabularies")
             (fun term => Search "oslo-terminology" "vocabularies" (URI term)))
    by (intros; apply (updateVocabulary_step (newClient config))).
  unfold client_bulk, fullSyncBulk, searches. simpl.
  now rewrite <- !app_assoc.
Qed.

Lemma updateApplicationProfile_run (data : list ITerm) (w : World E) :
  updateApplicationProfile config data w =
  let body :=
    fullSyncBulk (engine w) "oslo-application-profiles" "classes" data in
  (tt, mkWorld (bulk_write (engine w) body)
         (issued w ++ Ping 30000
            :: searches "oslo-application-profiles" "classes" data
            ++ [Bulk body])).
Proof.
  unfold updateApplicationProfile, connectToElasticsearch, client_ping, emit,
    bind, ret.
  cbn iota beta.
  rewrite (for_of_run _
             (fun e => fullSyncPair e "oslo-application-profiles" "classes")
             (fun term => Search "oslo-application-profiles" "classes" (URI term)))
    by (intros; apply (updateApplicationProfile_step (newClient config))).
  unfold client_bulk, fullSyncBulk, searches. simpl.
  now rewrite <- !app_assoc.
Qed.

Lemma pushDataInBulk_step (client : Client) (type index : string)
  (term : ITerm) (acc : list Json) (w : World E) :
  (id <- getId (URI term) index type client ;;
   if not_id id then
     let bulk := push acc
       (JObj [("index", JObj [("_index", JStr index);
                              ("_type", JStr type)])]) in
     ret (push bulk (term_obj term))
   else ret acc) w =
  (acc ++ plainPushPair (engine w) index type term,
   mkWorld (engine w) (issued w ++ [Search index type (URI term)])).
Proof.
  unfold bind. rewrite getId_run. unfold plainPushPair, push, ret.
  destruct (not_id _); simpl; [now rewrite <- app_assoc | now rewrite app_nil_r].
Qed.

Lemma pushDataInBulk_run (client : Client) (type index : string)
  (data : list ITerm) (w : World E) :
  pushDataInBulk client type index data w =
  let body := plainPushBulk (engine w) index type data in
  (tt,
   if negb (Nat.eqb (length body) 0) then
     mkWorld (bulk_write (engine w) body)
       (issued w ++ searches index type data ++ [Bulk body])
   else mkWorld (engine w) (issued w ++ searches index type data)).
Proof.
  unfold pushDataInBulk, bind.
  rewrite (for_of_run _ (fun e => plainPushPair e index type)
             (fun term => Search index type (URI term)))
    by (intros; apply (pushDataInBulk_step client)).
  fold (plainPushBulk (engine w) index type data).
  fold (searches index type data). simpl.
  destruct (negb _); unfold client_bulk, ret; simpl; [|reflexivity].
  now rewrite <- app_assoc.
Qed.

Lemma setupElasticsearch_run (w : World E) :
  setupElasticsearch config w =
  let e := engine w in
  let e1 := if indices_exists e "oslo-terminology" then e
            else indices_create e "oslo-terminology" in
  let e2 := if indices_exists e "oslo-application-profiles" then e1
            else indices_create e1 "oslo-application-profiles" in
  (tt, mkWorld e2
     (issued w
      ++ [Ping 30000; IndicesExists "oslo-terminology";
          IndicesExists "oslo-application-profiles"]
      ++ (if indices_exists e "oslo-terminology" then []
          else [ConsoleLog [JStr "[ElasticsearchDAO]: oslo-terminology index does not exist on setup. Creating it. "];
                IndicesCreate "oslo-terminology"])
      ++ (if indices_exists e "oslo-application-profiles" then []
          else [ConsoleLog [JStr "[ElasticsearchDAO]: oslo-application-profiles index does not exist on setup. Creating it. "];
                IndicesCreate "oslo-application-profiles"]))).
Proof.
  unfold setupElasticsearch, connectToElasticsearch, checkIfIndexExists,
    createIndex, console_log, client_ping, client_indices_exists,
    client_indices_create, emit, bind, ret.
  cbn.
  destruct (indices_exists (engine w) "oslo-terminology");
    destruct (indices_exists (engine w) "oslo-application-profiles");
    cbn; rewrite <- ?app_assoc; cbn; rewrite ?app_nil_r; reflexivity.
Qed.

(** *** Reading the effects of a run *)

Lemma bulk_bodies_app (evs evs' : list Effect) :
  bulk_bodies (evs ++ evs') = bulk_bodies evs ++ bulk_bodies evs'.
Proof. apply omap_app. Qed.

Lemma created_app (evs evs' : list Effect) :
  created (evs ++ evs') = created evs ++ created evs'.
Proof. apply omap_app. Qed.

Lemma bulk_bodies_searches (index type : string) (data : list ITerm) :
  bulk_bodies (searches index type data) = [].
Proof. induction data as [|term rest IH]; [reflexivity | exact IH]. Qed.

Lemma created_searches (index type : string) (data : list ITerm) :
  created (searches index type data) = [].
Proof. induction data as [|term rest IH]; [reflexivity | exact IH]. Qed.

End Runs.

(** ** Counting and locating the entries of a bulk list *)

Section Entries.

Context {E : Type} `{Engine E}.





Lemma fullSyncPair_length (e : E) (index type : string) (term : ITerm) :
  length (fullSyncPair e index type term) = 2.
Proof. unfold fullSyncPair. now destruct (not_id _). Qed.






(** The pair of the record at position [i] sits at positions [2i], [2i+1]. *)
Lemma fullSyncBulk_pair (e : E) (index type : string) (data : list ITerm)
  (i : nat) (term : ITerm) :
  data !! i = Some term ->
  take 2 (drop (2 * i) (fullSyncBulk e index type data)) =
  fullSyncPair e index type term.
Proof.
  unfold fullSyncBulk. revert i.
  induction data as [|t rest IH]; intros i Hi; [discriminate|].
  destruct i as [|i]; simpl in Hi.
  - injection Hi as ->. simpl. rewrite drop_0.
    rewrite take_app_length'; [reflexivity | now rewrite fullSyncPair_length].
  - replace (2 * S i) with (length (fullSyncPair e index type t) + 2 * i)
      by (rewrite fullSyncPair_length; lia).
    simpl flat_map. rewrite drop_app_add. now apply IH.
Qed.

Lemma fullSyncBulk_lookup (e : E) (index type : string) (data : list ITerm)
  (i k : nat) (term : ITerm) :
  data !! i = Some term -> k < 2 ->
  fullSyncBulk e index type data !! (2 * i + k) =
  fullSyncPair e index type term !! k.
Proof.
  intros Hi Hk. rewrite <- (fullSyncBulk_pair e index type data i term Hi).
  rewrite lookup_take_lt by exact Hk. now rewrite lookup_drop.
Qed.


Lemma plainPushBulk_unresolved (e : E) (index type : string)
  (data : list ITerm) :
  plainPushBulk e index type data =
  flat_map (insertPair index type) (unresolved e index type data).
Proof.
  unfold plainPushBulk, unresolved.
  induction data as [|term rest IH]; [reflexivity|].
  simpl. rewrite IH. unfold plainPushPair, resolves.
  now destruct (not_id _).
Qed.





Lemma unresolved_spec (e : E) (index type : string) (data : list ITerm)
  (term : ITerm) :
  In term (unresolved e index type data) <->
  In term data /\ resolves e index type term = false.
Proof.
  unfold unresolved. rewrite filter_In.
  now destruct (resolves e index type term).
Qed.

End Entries.

(** ** The bulk writes of each method *)

Section Submitted.

Context {E : Type} `{Engine E}.
Variable config : Config.

Lemma updateVocabulary_bulk (e : E) (data : list ITerm) :
  bulk_bodies (issued (snd (updateVocabulary config data (fresh e)))) =
  [fullSyncBulk e "oslo-terminology" "vocabularies" data].
Proof.
  rewrite updateVocabulary_run. simpl.
  change (Ping 30000 :: ?l) with ([Ping 30000] ++ l).
  now rewrite !bulk_bodies_app, bulk_bodies_searches.
Qed.

Lemma updateApplicationProfile_bulk (e : E) (data : list ITerm) :
  bulk_bodies (issued (snd (updateApplicationProfile config data (fresh e)))) =
  [fullSyncBulk e "oslo-application-profiles" "classes" data].
Proof.
  rewrite updateApplicationProfile_run. simpl.
  change (Ping 30000 :: ?l) with ([Ping 30000] ++ l).
  now rewrite !bulk_bodies_app, bulk_bodies_searches.
Qed.

Lemma pushDataInBulk_bulk (e : E) (client : Client) (type index : string)
  (data : list ITerm) :
  bulk_bodies (issued (snd (pushDataInBulk client type index data (fresh e)))) =
  let body := plainPushBulk e index type data in
  if Nat.eqb (length body) 0 then [] else [body].
Proof.
  rewrite pushDataInBulk_run. simpl.
  destruct (Nat.eqb _ 0); simpl.
  - apply bulk_bodies_searches.
  - now rewrite bulk_bodies_app, bulk_bodies_searches.
Qed.

End Submitted.

(** ** The exact-match post-filter *)

Lemma strict_eq_string_true (v : option Json) (s : string) :
  strict_eq_string v s = true <-> v = Some (JStr s).
Proof.
  destruct v as [[| | |t| |]|]; simpl; split; try discriminate.
  - intros Heq. apply String.eqb_eq in Heq. now subst.
  - intros [= ->]. apply String.eqb_refl.
Qed.

Lemma exactHit_Some (hits : list Hit) (uri : string) (obj : Hit) :
  exactHit hits uri = Some obj ->
  In obj hits /\ get "URI" (_source obj) = Some (JStr uri).
Proof.
  unfold exactHit. intros Hfind. apply find_some in Hfind as [Hin Heq].
  split; [exact Hin | now apply strict_eq_string_true].
Qed.

Lemma exactHit_None (hits : list Hit) (uri : string) :
  exactHit hits uri = None <->
  forall obj, In obj hits -> get "URI" (_source obj) <> Some (JStr uri).
Proof.
  unfold exactHit. split.
  - intros Hfind obj Hin Heq. apply strict_eq_string_true in Heq.
    pose proof (find_none _ _ Hfind obj Hin) as Hno. simpl in Hno. congruence.
  - intros Hno. induction hits as [|obj rest IH]; simpl; [reflexivity|].
    destruct (strict_eq_string (get "URI" (_source obj)) uri) eqn:Heq.
    + apply strict_eq_string_true in Heq. exfalso. apply (Hno obj); simpl; auto.
    + apply IH. intros obj' Hin. apply Hno. simpl; auto.
Qed.

Section Resolver.

Context {E : Type} `{Engine E}.

(** A record resolves exactly when its URI has an exact hit whose identifier
    is not the empty string; the update branch then targets that hit. *)
Lemma resolves_true (e : E) (index type : string) (term : ITerm) :
  resolves e index type term = true <->
  exists obj, exactHit (search e index type (URI term)) (URI term) = Some obj
              /\ _id obj <> "".
Proof.
  unfold resolves, resolve. split.
  - destruct (exactHit _ _) as [obj|]; simpl; [|discriminate].
    intros Hid. exists obj. split; [reflexivity|].
    intros Hempty. rewrite Hempty in Hid. discriminate.
  - intros (obj & -> & Hid). simpl.
    destruct (String.eqb_spec (_id obj) ""); [contradiction | reflexivity].
Qed.

(** When the engine never hands out an empty identifier, a record resolves
    exactly when [getId] does not return [null]. *)
Lemma resolves_not_null (e : E) (index type : string) (term : ITerm) :
  (forall obj, In obj (search e index type (URI term)) -> _id obj <> "") ->
  resolves e index type term = true <->
  resolve e index type (URI term) <> None.
Proof.
  intros Hids. rewrite resolves_true. unfold resolve. split.
  - now intros (obj & -> & _).
  - destruct (exactHit _ _) as [obj|] eqn:Hhit; [|congruence].
    intros _. exists obj. split; [reflexivity|].
    apply Hids. now apply exactHit_Some in Hhit.
Qed.

(** The test [!id] also holds for the empty string: an exact hit whose
    identifier is empty is handled as a record that is not indexed yet. *)
Example empty_identifier_is_inserted :
  fst (getId "a" "oslo-terminology" "vocabularies" some_client
         (fresh vocab_empty_id)) = Some "" /\
  resolves vocab_empty_id "oslo-terminology" "vocabularies"
    (mkTerm "a" "first") = false /\
  bulk_bodies (issued (snd (updateVocabulary cfg [mkTerm "a" "first"]
                              (fresh vocab_empty_id)))) =
    [insertPair "oslo-terminology" "vocabularies" (mkTerm "a" "first")].
Proof. repeat split. Qed.

(** C1. Whatever result set the search returns for a target URI, the
    identifier that [getId] returns is the [_id] of the hit that the
    post-filter selects, a hit of the result set whose stored URI is the
    string of the target itself; a hit that matches only approximately is
    never selected. *)
Theorem getId_exact (e : E) (evs : list Effect) (hits : list Hit)
  (uri index type : string) (client : Client) (id : string) :
  search e index type uri = hits ->
  fst (getId uri index type client (mkWorld e evs)) = Some id ->
  exists obj,
    exactHit hits uri = Some obj /\ In obj hits /\ _id obj = id /\
    get "URI" (_source obj) = Some (JStr uri).
Proof.
  intros <-. rewrite getId_run. unfold resolve. simpl.
  destruct (exactHit _ _) as [obj|] eqn:Hhit; [|discriminate].
  intros [= <-]. exists obj. apply exactHit_Some in Hhit as Hobj.
  destruct Hobj as [Hin Huri]. auto.
Qed.

(** C2. When no hit of the result set stores a URI equal to the target,
    [getId] returns [null], also when the result set is not empty. *)
Theorem getId_not_found (e : E) (evs : list Effect) (hits : list Hit)
  (uri index type : string) (client : Client) :
  search e index type uri = hits ->
  (forall obj, In obj hits -> get "URI" (_source obj) <> Some (JStr uri)) ->
  fst (getId uri index type client (mkWorld e evs)) = None.
Proof.
  intros <- Hno. rewrite getId_run. unfold resolve. simpl.
  apply exactHit_None in Hno. now rewrite Hno.
Qed.

End Resolver.

Lemma getId_exact_witness :
  search vocab_a_ab_a "oslo-terminology" "vocabularies" "a" =
    [hit "id1" "a"; hit "id2" "ab"; hit "id3" "a"] /\
  fst (getId "a" "oslo-terminology" "vocabularies" some_client
         (mkWorld vocab_a_ab_a [])) = Some "id1" /\
  exists obj,
    exactHit [hit "id1" "a"; hit "id2" "ab"; hit "id3" "a"] "a" = Some obj /\
    In obj [hit "id1" "a"; hit "id2" "ab"; hit "id3" "a"] /\
    _id obj = "id1" /\
    get "URI" (_source obj) = Some (JStr "a").
Proof.
  split; [reflexivity|]. split; [reflexivity|].
  apply (getId_exact vocab_a_ab_a [] _ "a" "oslo-terminology" "vocabularies"
           some_client "id1"); reflexivity.
Defined.

Lemma getId_not_found_witness :
  search vocab_ab "oslo-terminology" "vocabularies" "a" = [hit "id2" "ab"] /\
  (forall obj, In obj [hit "id2" "ab"] ->
               get "URI" (_source obj) <> Some (JStr "a")) /\
  fst (getId "a" "oslo-terminology" "vocabularies" some_client
         (mkWorld vocab_ab [])) = None.
Proof.
  assert (Hno : forall obj, In obj [hit "id2" "ab"] ->
                            get "URI" (_source obj) <> Some (JStr "a")).
  { intros obj [<- | []]. simpl. discriminate. }
  split; [reflexivity|]. split; [exact Hno|].
  apply (getId_not_found vocab_ab [] [hit "id2" "ab"] "a" "oslo-terminology"
           "vocabularies" some_client); [reflexivity | exact Hno].
Defined.

(** ** Full sync: [updateVocabulary] and [updateApplicationProfile] *)

Section FullSync.

Context {E : Type} `{Engine E}.
Variable config : Config.




(** C4. The pair of the record at position [i] of the batch occupies the
    positions [2i] and [2i+1] of the submitted body, so the pairs follow one
    another in the order of their records. *)
Theorem full_sync_order (e : E) (data : list ITerm) (i : nat) (term : ITerm) :
  data !! i = Some term ->
  (exists body,
     bulk_bodies (issued (snd (updateVocabulary config data (fresh e)))) = [body] /\
     body !! (2 * i) =
       fullSyncPair e "oslo-terminology" "vocabularies" term !! 0 /\
     body !! (2 * i + 1) =
       fullSyncPair e "oslo-terminology" "vocabularies" term !! 1) /\
  (exists body,
     bulk_bodies (issued (snd (updateApplicationProfile config data (fresh e)))) = [body] /\
     body !! (2 * i) =
       fullSyncPair e "oslo-application-profiles" "classes" term !! 0 /\
     body !! (2 * i + 1) =
       fullSyncPair e "oslo-application-profiles" "classes" term !! 1).
Proof.
  intros Hi.
  split; eexists; (split; [first [apply updateVocabulary_bulk
                                 | apply updateApplicationProfile_bulk]|]);
    (split; [rewrite <- (Nat.add_0_r (2 * i))|]);
    apply fullSyncBulk_lookup; auto with lia.
Qed.

(** The update pair of a record that resolves, at its place in the body. *)
Lemma fullSyncBulk_update_scope (e : E) (index type : string)
  (data : list ITerm) (i : nat) (term : ITerm) :
  data !! i = Some term ->
  resolves e index type term = true ->
  update_scope e index type (fullSyncBulk e index type data) i term.
Proof.
  intros Hi Hres. apply resolves_true in Hres as Hhit.
  destruct Hhit as (obj & Hhit & Hid).
  assert (Hpair : fullSyncPair e index type term =
                  updatePair index type (Some (_id obj)) term).
  { unfold fullSyncPair. unfold resolves in Hres.
    destruct (not_id _); [discriminate|].
    unfold resolve. now rewrite Hhit. }
  apply exactHit_Some in Hhit as Hobj. destruct Hobj as [_ Huri].
  exists obj. eexists. split; [exact Hhit|].
  split.
  { rewrite <- (Nat.add_0_r (2 * i)).
    rewrite (fullSyncBulk_lookup e index type data i 0 term Hi) by lia.
    rewrite Hpair. reflexivity. }
  split.
  { rewrite (fullSyncBulk_lookup e index type data i 1 term Hi) by lia.
    rewrite Hpair. reflexivity. }
  repeat split; try reflexivity.
  - simpl. intros [Hk | [Hk | [Hk | [Hk | []]]]]; discriminate Hk.
  - now rewrite Huri.
Qed.

(** C7. For a record that resolves to an existing identifier, the payload
    that follows its update directive is [{doc: {...}}] with exactly the
    properties prefLabel, URI, definition and context, taken from the
    record; it has no [_id] property, the directive targets the identifier
    of the exact hit, and the URI it writes is the URI the hit stores. *)
Theorem update_payload_scope (e : E) (data : list ITerm) (i : nat)
  (term : ITerm) :
  data !! i = Some term ->
  (resolves e "oslo-terminology" "vocabularies" term = true ->
   exists body,
     bulk_bodies (issued (snd (updateVocabulary config data (fresh e)))) = [body] /\
     update_scope e "oslo-terminology" "vocabularies" body i term) /\
  (resolves e "oslo-application-profiles" "classes" term = true ->
   exists body,
     bulk_bodies (issued (snd (updateApplicationProfile config data (fresh e)))) = [body] /\
     update_scope e "oslo-application-profiles" "classes" body i term).
Proof.
  intros Hi.
  split; intros Hres; eexists;
    (split; [first [apply updateVocabulary_bulk
                   | apply updateApplicationProfile_bulk]|]);
    now apply fullSyncBulk_update_scope.
Qed.

(** C8, on the full-sync path. For the empty batch each update method still
    calls the bulk primitive once, with an empty body: the call is not
    guarded by the length of the list, as it is in [pushDataInBulk]. *)
Theorem full_sync_empty_batch (e : E) :
  issued (snd (updateVocabulary config [] (fresh e))) = [Ping 30000; Bulk []] /\
  issued (snd (updateApplicationProfile config [] (fresh e))) =
    [Ping 30000; Bulk []].
Proof. split; reflexivity. Qed.

Lemma fullSyncPair_retarget (e e' : E) (index type index' type' : string)
  (term : ITerm) :
  resolve e' index' type' (URI term) = resolve e index type (URI term) ->
  fullSyncPair e' index' type' term =
  map (retarget index' type') (fullSyncPair e index type term).
Proof.
  unfold fullSyncPair. intros ->. now destruct (not_id _).
Qed.

Lemma fullSyncBulk_retarget (e e' : E) (index type index' type' : string)
  (data : list ITerm) :
  (forall uri, resolve e' index' type' uri = resolve e index type uri) ->
  fullSyncBulk e' index' type' data =
  map (retarget index' type') (fullSyncBulk e index type data).
Proof.
  intros Hsame. unfold fullSyncBulk.
  induction data as [|term rest IH]; [reflexivity|].
  simpl. rewrite map_app, IH.
  now rewrite (fullSyncPair_retarget e e' index type index' type').
Qed.

(** C10. Each update method is the reconciliation of the design at its own
    collection name and record-kind label: the two methods are one function
    of the batch and the engine, up to these two constants. When the
    resolver answers alike for the two collections, the body that
    [updateApplicationProfile] submits is the body that [updateVocabulary]
    submits with the two constants replaced in its directives. *)
Theorem update_methods_reconcile (data : list ITerm) (e e' : E) :
  (forall w, updateVocabulary config data w =
             reconcile config "oslo-terminology" "vocabularies" data w) /\
  (forall w, updateApplicationProfile config data w =
             reconcile config "oslo-application-profiles" "classes" data w) /\
  ((forall uri, resolve e' "oslo-application-profiles" "classes" uri =
                resolve e "oslo-terminology" "vocabularies" uri) ->
   bulk_bodies (issued (snd (updateApplicationProfile config data (fresh e')))) =
   map (map (retarget "oslo-application-profiles" "classes"))
     (bulk_bodies (issued (snd (updateVocabulary config data (fresh e)))))).
Proof.
  split; [|split].
  - intros w. now rewrite updateVocabulary_run, reconcile_run.
  - intros w. now rewrite updateApplicationProfile_run, reconcile_run.
  - intros Hsame.
    rewrite updateVocabulary_bulk, updateApplicationProfile_bulk. simpl.
    now rewrite (fullSyncBulk_retarget e e' "oslo-terminology" "vocabularies").
Qed.

End FullSync.

(** ** Plain push: [pushDataInBulk] *)

Section PlainPush.

Context {E : Type} `{Engine E}.
Variable config : Config.



(** The empty batch on the plain-push path: no bulk write, no effect. *)
Lemma plain_push_empty_batch (e : E) (client : Client) (type index : string) :
  snd (pushDataInBulk client type index [] (fresh e)) = fresh e.
Proof. reflexivity. Qed.

(** [pushData] requests the creation of its index only when the existence
    check answers that it is absent. *)
Lemma pushData_created (e : E) (data : list ITerm) (index type : string) :
  created (issued (snd (pushData config data index type (fresh e)))) =
  if indices_exists e index then [] else [index].
Proof.
  unfold pushData, connectToElasticsearch, checkIfIndexExists, createIndex,
    console_log, client_ping, client_indices_exists, client_indices_create,
    emit, bind, ret.
  cbn iota beta. simpl engine. simpl issued.
  destruct (indices_exists e index); unfold negb at 1; cbn iota beta;
    rewrite pushDataInBulk_run; cbn zeta; destruct (negb _);
    cbn [snd issued]; rewrite !created_app, created_searches; reflexivity.
Qed.

End PlainPush.

(** ** Bootstrap and connection *)

Section Bootstrap.

Context {E : Type} `{Engine E}.
Variable config : Config.

(** C6. [setupElasticsearch] requests the creation of a collection exactly
    when the existence check answered that it is absent. On collections that
    both exist it issues the probe and the two checks only, leaves the
    engine as it was, and a second call does the same again: no creation
    request, and the method returns. *)
Theorem setup_idempotent (e : E) :
  let w1 := snd (setupElasticsearch config (fresh e)) in
  let w2 := snd (setupElasticsearch config w1) in
  created (issued w1) =
    (if indices_exists e "oslo-terminology" then []
     else ["oslo-terminology"])
    ++ (if indices_exists e "oslo-application-profiles" then []
        else ["oslo-application-profiles"]) /\
  (indices_exists e "oslo-terminology" = true ->
   indices_exists e "oslo-application-profiles" = true ->
   issued w1 = [Ping 30000; IndicesExists "oslo-terminology";
                IndicesExists "oslo-application-profiles"] /\
   engine w1 = e /\
   issued w2 = issued w1 ++ [Ping 30000; IndicesExists "oslo-terminology";
                             IndicesExists "oslo-application-profiles"] /\
   engine w2 = e /\
   created (issued w2) = []).
Proof.
  cbv zeta. split.
  - rewrite setupElasticsearch_run. simpl.
    destruct (indices_exists e "oslo-terminology");
      destruct (indices_exists e "oslo-application-profiles"); reflexivity.
  - intros Ht Ha.
    assert (Hrun : forall w, engine w = e ->
              snd (setupElasticsearch config w) =
              mkWorld e (issued w ++ [Ping 30000; IndicesExists "oslo-terminology";
                                      IndicesExists "oslo-application-profiles"])).
    { intros w Hw. rewrite setupElasticsearch_run. cbv zeta.
      rewrite Hw, Ht, Ha. simpl. now rewrite ?app_nil_r. }
    rewrite (Hrun (fresh e) eq_refl). simpl.
    rewrite Hrun by reflexivity. simpl. auto.
Qed.

(** C9, on the success path. When the probe reports no error the callback
    does nothing at all, so nothing is logged: the branch that logs that the
    cluster is running sits under the test that an error is present. *)
Theorem ping_success_is_silent : pingCallback None = [].
Proof. reflexivity. Qed.

(** When the probe reports an error the callback writes the marked error
    line and ends the process with exit code 1. *)
Lemma ping_failure_is_fatal (error : Json) :
  pingCallback (Some error) =
  [ConsoleError [JStr (ESC ++ "[31m%s" ++ ESC ++ "[0m ")%string;
                 JStr "Elasticsearch cluster is down"];
   ProcessExit 1].
Proof. reflexivity. Qed.

(** Whatever the probe reports, the line that the cluster is running is
    never written. *)
Lemma ping_never_logs (error : option Json) (args : list Json) :
  ~ In (ConsoleLog args) (pingCallback error).
Proof.
  destruct error; simpl; intros Hin.
  - destruct Hin as [Hin | [Hin | []]]; discriminate Hin.
  - exact Hin.
Qed.

End Bootstrap.

(** ** The theorems at concrete batches *)





Lemma full_sync_order_witness :
  batch !! 1 = Some (mkTerm "b" "second") /\
  (exists body,
     bulk_bodies (issued (snd (updateVocabulary cfg batch (fresh vocab_a_ab_a)))) = [body] /\
     body !! 2 = Some (JObj [("index", JObj [("_index", JStr "oslo-terminology");
                                              ("_type", JStr "vocabularies")])]) /\
     body !! 3 = Some (term_obj (mkTerm "b" "second"))) /\
  (exists body,
     bulk_bodies (issued (snd (updateApplicationProfile cfg batch (fresh vocab_a_ab_a)))) = [body] /\
     body !! 2 = Some (JObj [("index", JObj [("_index", JStr "oslo-application-profiles");
                                              ("_type", JStr "classes")])]) /\
     body !! 3 = Some (term_obj (mkTerm "b" "second"))).
Proof.
  split; [reflexivity|].
  exact (full_sync_order cfg vocab_a_ab_a batch 1 (mkTerm "b" "second")
           eq_refl).
Defined.

Lemma update_payload_scope_witness :
  batch !! 0 = Some (mkTerm "a" "first") /\
  resolves mirrored "oslo-terminology" "vocabularies" (mkTerm "a" "first") = true /\
  resolves mirrored "oslo-application-profiles" "classes" (mkTerm "a" "first") = true /\
  (exists body,
     bulk_bodies (issued (snd (updateVocabulary cfg batch (fresh mirrored)))) = [body] /\
     update_scope mirrored "oslo-terminology" "vocabularies" body 0
       (mkTerm "a" "first")) /\
  (exists body,
     bulk_bodies (issued (snd (updateApplicationProfile cfg batch (fresh mirrored)))) = [body] /\
     update_scope mirrored "oslo-application-profiles" "classes" body 0
       (mkTerm "a" "first")).
Proof.
  destruct (update_payload_scope cfg mirrored batch 0 (mkTerm "a" "first")
              eq_refl) as [Hvocabulary Hprofile].
  split; [reflexivity|]. split; [reflexivity|]. split; [reflexivity|].
  split; [apply Hvocabulary | apply Hprofile]; reflexivity.
Defined.

Lemma setup_idempotent_witness :
  indices_exists vocab_a_ab_a "oslo-terminology" = true /\
  indices_exists vocab_a_ab_a "oslo-application-profiles" = true /\
  issued (snd (setupElasticsearch cfg (fresh vocab_a_ab_a))) =
    [Ping 30000; IndicesExists "oslo-terminology";
     IndicesExists "oslo-application-profiles"] /\
  created
    (issued (snd (setupElasticsearch cfg
                    (snd (setupElasticsearch cfg (fresh vocab_a_ab_a)))))) = [].
Proof.
  destruct (setup_idempotent cfg vocab_a_ab_a) as [_ Hexisting].
  destruct (Hexisting eq_refl eq_refl) as (Hfirst & _ & _ & _ & Hsecond).
  split; [reflexivity|]. split; [reflexivity|]. split; [exact Hfirst|].
  exact Hsecond.
Defined.

Lemma update_methods_reconcile_witness :
  (forall uri, resolve mirrored "oslo-application-profiles" "classes" uri =
               resolve mirrored "oslo-terminology" "vocabularies" uri) /\
  bulk_bodies (issued (snd (updateApplicationProfile cfg batch (fresh mirrored)))) =
  map (map (retarget "oslo-application-profiles" "classes"))
    (bulk_bodies (issued (snd (updateVocabulary cfg batch (fresh mirrored))))).
Proof.
  assert (Hsame : forall uri,
             resolve mirrored "oslo-application-profiles" "classes" uri =
             resolve mirrored "oslo-terminology" "vocabularies" uri).
  { intros uri. unfold resolve. cbn -[String.prefix].
    destruct (String.prefix uri "a"); reflexivity. }
  split; [exact Hsame|].
  destruct (update_methods_reconcile cfg batch mirrored mirrored)
    as (_ & _ & Hretarget).
  exact (Hretarget Hsame).
Defined.

(** ** More on the key resolver *)

Lemma find_head_filter {A : Type} (p : A -> bool) (l : list A) :
  find p l = head (List.filter p l).
Proof.
  induction l as [|x l IH]; simpl; [reflexivity|].
  now destruct (p x).
Qed.

Lemma exactHit_head (hits : list Hit) (uri : string) :
  exactHit hits uri = head (List.filter (is_exact uri) hits).
Proof. apply find_head_filter. Qed.

Section ResolverOrder.

Context {E : Type} `{Engine E}.

(** X1. When several hits store the target URI, [getId] returns the
    identifier of the first of them in the order of the result set:
    the hits before it that do not store the target URI are passed over,
    and the hits after it are not looked at. *)
Theorem getId_first_exact (e : E) (evs : list Effect)
  (before after : list Hit) (obj : Hit) (uri index type : string)
  (client : Client) :
  search e index type uri = before ++ obj :: after ->
  (forall o, In o before -> get "URI" (_source o) <> Some (JStr uri)) ->
  get "URI" (_source obj) = Some (JStr uri) ->
  fst (getId uri index type client (mkWorld e evs)) = Some (_id obj).
Proof.
  intros Hhits Hbefore Hobj. rewrite getId_run. unfold resolve. simpl.
  rewrite Hhits. clear Hhits.
  assert (Hfind : exactHit (before ++ obj :: after) uri = Some obj).
  { unfold exactHit.
    induction before as [|o before IH]; simpl.
    - apply strict_eq_string_true in Hobj. now rewrite Hobj.
    - destruct (strict_eq_string (get "URI" (_source o)) uri) eqn:Ho.
      + apply strict_eq_string_true in Ho.
        exfalso. apply (Hbefore o); simpl; auto.
      + apply IH. intros o' Hin. apply Hbefore. simpl; auto. }
  now rewrite Hfind.
Qed.

(** X2. The answer of [getId] depends on the result set only through its
    exact hits, in their order: two result sets with the same exact hits
    give the same answer, whatever approximate hits they hold and wherever
    these stand. *)
Theorem getId_ignores_approximate (e e' : E) (evs evs' : list Effect)
  (uri index type index' type' : string) (client client' : Client) :
  List.filter (is_exact uri) (search e index type uri) =
  List.filter (is_exact uri) (search e' index' type' uri) ->
  fst (getId uri index type client (mkWorld e evs)) =
  fst (getId uri index' type' client' (mkWorld e' evs')).
Proof.
  intros Hsame. rewrite !getId_run. unfold resolve. simpl.
  now rewrite !exactHit_head, Hsame.
Qed.

End ResolverOrder.

Lemma getId_first_exact_witness :
  search vocab_ab_a_a "oslo-terminology" "vocabularies" "a" =
    [hit "id2" "ab"] ++ hit "id1" "a" :: [hit "id3" "a"] /\
  (forall o, In o [hit "id2" "ab"] ->
             get "URI" (_source o) <> Some (JStr "a")) /\
  get "URI" (_source (hit "id1" "a")) = Some (JStr "a") /\
  fst (getId "a" "oslo-terminology" "vocabularies" some_client
         (mkWorld vocab_ab_a_a [])) = Some "id1".
Proof.
  assert (Hbefore : forall o, In o [hit "id2" "ab"] ->
                              get "URI" (_source o) <> Some (JStr "a")).
  { intros o [<- | []]. simpl. discriminate. }
  split; [reflexivity|]. split; [exact Hbefore|]. split; [reflexivity|].
  exact (getId_first_exact vocab_ab_a_a [] [hit "id2" "ab"] [hit "id3" "a"]
           (hit "id1" "a") "a" "oslo-terminology" "vocabularies" some_client
           eq_refl Hbefore eq_refl).
Defined.

Lemma getId_ignores_approximate_witness :
  List.filter (is_exact "a")
    (search vocab_a_ab_a "oslo-terminology" "vocabularies" "a") =
  List.filter (is_exact "a")
    (search vocab_ab_a_a "oslo-terminology" "vocabularies" "a") /\
  fst (getId "a" "oslo-terminology" "vocabularies" some_client
         (mkWorld vocab_a_ab_a [])) =
  fst (getId "a" "oslo-terminology" "vocabularies" some_client
         (mkWorld vocab_ab_a_a [])).
Proof.
  split; [reflexivity|].
  exact (getId_ignores_approximate vocab_a_ab_a vocab_ab_a_a [] [] "a"
           "oslo-terminology" "vocabularies" "oslo-terminology" "vocabularies"
           some_client some_client eq_refl).
Defined.

(** ** More on the full sync *)

Section FullSyncShape.

Context {E : Type} `{Engine E}.
Variable config : Config.

Lemma fullSyncBulk_in (e : E) (index type : string) (data : list ITerm)
  (d : Json) :
  In d (fullSyncBulk e index type data) <->
  exists term, In term data /\ In d (fullSyncPair e index type term).
Proof. unfold fullSyncBulk. apply in_flat_map. Qed.

Lemma fullSyncPair_cases (e : E) (index type : string) (term : ITerm) :
  (resolves e index type term = false /\
   fullSyncPair e index type term = insertPair index type term) \/
  (exists obj,
     exactHit (search e index type (URI term)) (URI term) = Some obj /\
     _id obj <> "" /\
     fullSyncPair e index type term =
     updatePair index type (Some (_id obj)) term).
Proof.
  destruct (resolves e index type term) eqn:Hres.
  - right. apply resolves_true in Hres as (obj & Hhit & Hid).
    exists obj. split; [exact Hhit|]. split; [exact Hid|].
    unfold fullSyncPair, resolve. rewrite Hhit. simpl.
    now destruct (String.eqb_spec (_id obj) "").
  - left. split; [reflexivity|].
    unfold fullSyncPair. unfold resolves in Hres.
    now destruct (not_id _).
Qed.

Lemma fullSyncPair_addresses (e : E) (index type : string) (term : ITerm)
  (d : Json) :
  In d (fullSyncPair e index type term) ->
  (is_directive "index" d || is_directive "update" d) = true ->
  addresses index type d.
Proof.
  destruct (fullSyncPair_cases e index type term)
    as [[_ ->] | (obj & _ & _ & ->)];
    intros [<- | [<- | []]]; simpl; try discriminate; intros _;
    eexists; repeat split.
Qed.

Lemma fullSyncPair_update (e : E) (index type : string) (term : ITerm)
  (d : Json) :
  In d (fullSyncPair e index type term) ->
  is_directive "update" d = true ->
  exists obj target,
    exactHit (search e index type (URI term)) (URI term) = Some obj /\
    _id obj <> "" /\
    directive_target d = Some target /\
    get "_id" target = Some (JStr (_id obj)).
Proof.
  destruct (fullSyncPair_cases e index type term)
    as [[_ ->] | (obj & Hhit & Hid & ->)];
    intros [<- | [<- | []]]; simpl; try discriminate; intros _.
  exists obj. eexists. repeat split; [exact Hhit | exact Hid].
Qed.

Lemma fullSyncBulk_pair_at (e : E) (index type : string) (data : list ITerm)
  (i : nat) :
  i < length data -> pair_at (fullSyncBulk e index type data) i.
Proof.
  intros Hi. destruct (lookup_lt_is_Some_2 data i Hi) as [term Hterm].
  assert (H0 := fullSyncBulk_lookup e index type data i 0 term Hterm).
  assert (H1 := fullSyncBulk_lookup e index type data i 1 term Hterm).
  rewrite Nat.add_0_r in H0. specialize (H0 ltac:(lia)).
  specialize (H1 ltac:(lia)).
  destruct (fullSyncPair_cases e index type term)
    as [[_ Hpair] | (obj & _ & _ & Hpair)]; rewrite Hpair in H0, H1;
    simpl in H0, H1; unfold pair_at; do 2 eexists;
    (split; [exact H0|]); (split; [exact H1|]); split; reflexivity.
Qed.




(** X5. The body of a full sync is well formed for the bulk primitive: for
    every record, position [2i] holds an index or update directive and
    position [2i+1] holds an entry that is not a directive. *)
Theorem full_sync_pairs (e : E) (data : list ITerm) (i : nat) :
  i < length data ->
  (exists body,
     bulk_bodies (issued (snd (updateVocabulary config data (fresh e)))) = [body] /\
     pair_at body i) /\
  (exists body,
     bulk_bodies (issued (snd (updateApplicationProfile config data (fresh e)))) = [body] /\
     pair_at body i).
Proof.
  intros Hi.
  split; eexists; (split; [first [apply updateVocabulary_bulk
                                 | apply updateApplicationProfile_bulk]|]);
    now apply fullSyncBulk_pair_at.
Qed.

(** X6. Every directive that [updateVocabulary] submits addresses the index
    oslo-terminology and the type vocabularies, and every directive that
    [updateApplicationProfile] submits addresses oslo-application-profiles
    and classes: a full sync writes to no other collection. *)
Theorem full_sync_own_collection (e : E) (data : list ITerm)
  (body : list Json) (d : Json) :
  (In body (bulk_bodies (issued (snd (updateVocabulary config data (fresh e))))) ->
   In d body ->
   (is_directive "index" d || is_directive "update" d) = true ->
   addresses "oslo-terminology" "vocabularies" d) /\
  (In body (bulk_bodies (issued (snd (updateApplicationProfile config data (fresh e))))) ->
   In d body ->
   (is_directive "index" d || is_directive "update" d) = true ->
   addresses "oslo-application-profiles" "classes" d).
Proof.
  rewrite updateVocabulary_bulk, updateApplicationProfile_bulk.
  split; intros [<- | []] Hd Hdir; apply fullSyncBulk_in in Hd as (term & _ & Hd);
    now apply (fullSyncPair_addresses e _ _ term).
Qed.

(** X7. Every update directive of a full sync carries as [_id] a string
    that is not empty and is the identifier of the exact hit returned for
    the URI of a record of the batch: no update is sent with a null, empty
    or made-up identifier. *)
Theorem full_sync_update_ids (e : E) (data : list ITerm) (body : list Json)
  (d : Json) :
  (In body (bulk_bodies (issued (snd (updateVocabulary config data (fresh e))))) ->
   In d body -> is_directive "update" d = true ->
   targets_hit_of e "oslo-terminology" "vocabularies" data d) /\
  (In body (bulk_bodies (issued (snd (updateApplicationProfile config data (fresh e))))) ->
   In d body -> is_directive "update" d = true ->
   targets_hit_of e "oslo-application-profiles" "classes" data d).
Proof.
  rewrite updateVocabulary_bulk, updateApplicationProfile_bulk.
  split; intros [<- | []] Hd Hdir;
    apply fullSyncBulk_in in Hd as (term & Hterm & Hd);
    destruct (fullSyncPair_update e _ _ term d Hd Hdir)
      as (obj & target & Hhit & Hid & Htarget & Hget);
    exists term, obj, target; auto.
Qed.

(** X8. On one engine state, the body submitted for a batch that is two
    batches one after the other is the body of the first followed by the
    body of the second. *)
Theorem full_sync_concat (e : E) (data data' : list ITerm) :
  (exists body body',
     bulk_bodies (issued (snd (updateVocabulary config data (fresh e)))) = [body] /\
     bulk_bodies (issued (snd (updateVocabulary config data' (fresh e)))) = [body'] /\
     bulk_bodies (issued (snd (updateVocabulary config (data ++ data') (fresh e)))) =
       [body ++ body']) /\
  (exists body body',
     bulk_bodies (issued (snd (updateApplicationProfile config data (fresh e)))) = [body] /\
     bulk_bodies (issued (snd (updateApplicationProfile config data' (fresh e)))) = [body'] /\
     bulk_bodies (issued (snd (updateApplicationProfile config (data ++ data') (fresh e)))) =
       [body ++ body']).
Proof.
  rewrite !updateVocabulary_bulk, !updateApplicationProfile_bulk.
  unfold fullSyncBulk. rewrite !flat_map_app.
  split; do 2 eexists; repeat split.
Qed.

End FullSyncShape.

(** ** More on the plain push *)

Section PlainPushShape.

Context {E : Type} `{Engine E}.
Variable config : Config.

Lemma unresolved_nil (e : E) (index type : string) (data : list ITerm) :
  (forall term, In term data -> resolves e index type term = true) ->
  unresolved e index type data = [].
Proof.
  intros Hall. unfold unresolved.
  induction data as [|term rest IH]; [reflexivity|].
  simpl. rewrite (Hall term) by (simpl; auto). simpl.
  apply IH. intros term' Hin. apply Hall. simpl; auto.
Qed.

Lemma fullSyncBulk_unresolved (e : E) (index type : string)
  (data : list ITerm) :
  fullSyncBulk e index type (unresolved e index type data) =
  flat_map (insertPair index type) (unresolved e index type data).
Proof.
  assert (Hno : forall term, In term (unresolved e index type data) ->
                             resolves e index type term = false).
  { intros term Hin. now apply unresolved_spec in Hin. }
  unfold fullSyncBulk.
  induction (unresolved e index type data) as [|term rest IH]; [reflexivity|].
  simpl. rewrite IH by (intros term' Hin; apply Hno; simpl; auto).
  destruct (fullSyncPair_cases e index type term)
    as [[_ ->] | (obj & Hhit & Hid & _)]; [reflexivity|].
  assert (Hres : resolves e index type term = true)
    by (apply resolves_true; eauto).
  rewrite (Hno term) in Hres by (simpl; auto). discriminate.
Qed.

(** X9. When every record of the batch resolves, the plain push does the
    lookups and nothing more: no bulk write is issued and the engine is
    left as it was, so importing again what is indexed already changes
    nothing. *)
Theorem plain_push_all_resolved (e : E) (client : Client) (type index : string)
  (data : list ITerm) :
  (forall term, In term data -> resolves e index type term = true) ->
  snd (pushDataInBulk client type index data (fresh e)) =
  mkWorld e (searches index type data).
Proof.
  intros Hall. rewrite pushDataInBulk_run. cbv zeta.
  rewrite plainPushBulk_unresolved, unresolved_nil by exact Hall.
  reflexivity.
Qed.

(** X10. The plain push of a batch submits what the full sync would submit
    for the records of the batch that do not resolve, and submits nothing
    when there is none. *)
Theorem plain_push_is_sync_of_unresolved (e : E) (client : Client)
  (data : list ITerm) :
  bulk_bodies (issued (snd (pushDataInBulk client "vocabularies"
                              "oslo-terminology" data (fresh e)))) =
    match unresolved e "oslo-terminology" "vocabularies" data with
    | [] => []
    | rest =>
        bulk_bodies (issued (snd (updateVocabulary config rest (fresh e))))
    end /\
  bulk_bodies (issued (snd (pushDataInBulk client "classes"
                              "oslo-application-profiles" data (fresh e)))) =
    match unresolved e "oslo-application-profiles" "classes" data with
    | [] => []
    | rest =>
        bulk_bodies (issued (snd (updateApplicationProfile config rest (fresh e))))
    end.
Proof.
  rewrite !pushDataInBulk_bulk. cbv zeta. rewrite !plainPushBulk_unresolved.
  split.
  - pose proof (fullSyncBulk_unresolved e "oslo-terminology" "vocabularies"
                  data) as Hsync.
    destruct (unresolved e "oslo-terminology" "vocabularies" data)
      as [|term rest]; [reflexivity|].
    now rewrite updateVocabulary_bulk, Hsync.
  - pose proof (fullSyncBulk_unresolved e "oslo-application-profiles"
                  "classes" data) as Hsync.
    destruct (unresolved e "oslo-application-profiles" "classes" data)
      as [|term rest]; [reflexivity|].
    now rewrite updateApplicationProfile_bulk, Hsync.
Qed.

End PlainPushShape.

(** ** More on the callbacks *)

(** X13. The process is ended by the callback of the probe, with exit code
    1 and exactly when the probe reports an error; the callbacks of index
    creation and of the bulk writes only write console lines, whatever they
    are given. *)
Theorem only_failed_probe_exits (name : string) (data : list ITerm)
  (error : option Json) (response : Json) (code : Z) :
  (In (ProcessExit code) (pingCallback error) <->
   is_error error = true /\ code = 1%Z) /\
  (forall ev,
      In ev (createIndexCallback name error response
             ++ updateBulkCallback error response
             ++ pushBulkCallback data error response) ->
      exists args, ev = ConsoleLog args).
Proof.
  split.
  - destruct error as [err|]; simpl; split.
    + intros [Hev | [Hev | []]]; [discriminate Hev|].
      injection Hev as <-. auto.
    + intros [_ ->]. auto.
    + intros [].
    + intros [Herr _]. discriminate Herr.
  - destruct error as [err|]; simpl;
      intros ev [<- | [<- | [<- | []]]]; eauto.
Qed.

(** ** The further theorems at concrete batches *)


Lemma full_sync_pairs_witness :
  1 < length batch /\
  (exists body,
     bulk_bodies (issued (snd (updateVocabulary cfg batch (fresh vocab_a_ab_a)))) = [body] /\
     pair_at body 1) /\
  (exists body,
     bulk_bodies (issued (snd (updateApplicationProfile cfg batch (fresh vocab_a_ab_a)))) = [body] /\
     pair_at body 1).
Proof.
  assert (Hlt : 1 < length batch) by (simpl; lia).
  split; [exact Hlt|].
  exact (full_sync_pairs cfg vocab_a_ab_a batch 1 Hlt).
Defined.

Lemma full_sync_own_collection_witness :
  In (fullSyncBulk mirrored "oslo-terminology" "vocabularies" batch)
    (bulk_bodies (issued (snd (updateVocabulary cfg batch (fresh mirrored))))) /\
  In (JObj [("update", JObj [("_index", JStr "oslo-terminology");
                             ("_type", JStr "vocabularies");
                             ("_id", JStr "id1")])])
    (fullSyncBulk mirrored "oslo-terminology" "vocabularies" batch) /\
  addresses "oslo-terminology" "vocabularies"
    (JObj [("update", JObj [("_index", JStr "oslo-terminology");
                            ("_type", JStr "vocabularies");
                            ("_id", JStr "id1")])]) /\
  In (fullSyncBulk mirrored "oslo-application-profiles" "classes" batch)
    (bulk_bodies (issued (snd (updateApplicationProfile cfg batch (fresh mirrored))))) /\
  In (JObj [("index", JObj [("_index", JStr "oslo-application-profiles");
                            ("_type", JStr "classes")])])
    (fullSyncBulk mirrored "oslo-application-profiles" "classes" batch) /\
  addresses "oslo-application-profiles" "classes"
    (JObj [("index", JObj [("_index", JStr "oslo-application-profiles");
                           ("_type", JStr "classes")])]).
Proof.
  destruct (full_sync_own_collection cfg mirrored batch
              (fullSyncBulk mirrored "oslo-terminology" "vocabularies" batch)
              (JObj [("update", JObj [("_index", JStr "oslo-terminology");
                                      ("_type", JStr "vocabularies");
                                      ("_id", JStr "id1")])]))
    as [Hvocabulary _].
  destruct (full_sync_own_collection cfg mirrored batch
              (fullSyncBulk mirrored "oslo-application-profiles" "classes" batch)
              (JObj [("index", JObj [("_index", JStr "oslo-application-profiles");
                                     ("_type", JStr "classes")])]))
    as [_ Hprofile].
  assert (Hbody : In (fullSyncBulk mirrored "oslo-terminology" "vocabularies" batch)
    (bulk_bodies (issued (snd (updateVocabulary cfg batch (fresh mirrored))))))
    by (left; reflexivity).
  assert (Hd : In (JObj [("update", JObj [("_index", JStr "oslo-terminology");
                                         ("_type", JStr "vocabularies");
                                         ("_id", JStr "id1")])])
    (fullSyncBulk mirrored "oslo-terminology" "vocabularies" batch))
    by (left; reflexivity).
  assert (Hbody' : In (fullSyncBulk mirrored "oslo-application-profiles" "classes" batch)
    (bulk_bodies (issued (snd (updateApplicationProfile cfg batch (fresh mirrored))))))
    by (left; reflexivity).
  assert (Hd' : In (JObj [("index", JObj [("_index", JStr "oslo-application-profiles");
                                         ("_type", JStr "classes")])])
    (fullSyncBulk mirrored "oslo-application-profiles" "classes" batch))
    by (right; right; left; reflexivity).
  split; [exact Hbody|]. split; [exact Hd|].
  split; [exact (Hvocabulary Hbody Hd eq_refl)|].
  split; [exact Hbody'|]. split; [exact Hd'|].
  exact (Hprofile Hbody' Hd' eq_refl).
Defined.

Lemma full_sync_update_ids_witness :
  In (fullSyncBulk mirrored "oslo-terminology" "vocabularies" batch)
    (bulk_bodies (issued (snd (updateVocabulary cfg batch (fresh mirrored))))) /\
  targets_hit_of mirrored "oslo-terminology" "vocabularies" batch
    (JObj [("update", JObj [("_index", JStr "oslo-terminology");
                            ("_type", JStr "vocabularies");
                            ("_id", JStr "id1")])]) /\
  In (fullSyncBulk mirrored "oslo-application-profiles" "classes" batch)
    (bulk_bodies (issued (snd (updateApplicationProfile cfg batch (fresh mirrored))))) /\
  targets_hit_of mirrored "oslo-application-profiles" "classes" batch
    (JObj [("update", JObj [("_index", JStr "oslo-application-profiles");
                            ("_type", JStr "classes");
                            ("_id", JStr "id1")])]).
Proof.
  destruct (full_sync_update_ids cfg mirrored batch
              (fullSyncBulk mirrored "oslo-terminology" "vocabularies" batch)
              (JObj [("update", JObj [("_index", JStr "oslo-terminology");
                                      ("_type", JStr "vocabularies");
                                      ("_id", JStr "id1")])]))
    as [Hvocabulary _].
  destruct (full_sync_update_ids cfg mirrored batch
              (fullSyncBulk mirrored "oslo-application-profiles" "classes" batch)
              (JObj [("update", JObj [("_index", JStr "oslo-application-profiles");
                                      ("_type", JStr "classes");
                                      ("_id", JStr "id1")])]))
    as [_ Hprofile].
  split; [left; reflexivity|].
  split; [apply Hvocabulary; [left; reflexivity | left; reflexivity | reflexivity]|].
  split; [left; reflexivity|].
  apply Hprofile; [left; reflexivity | left; reflexivity | reflexivity].
Defined.

Lemma plain_push_all_resolved_witness :
  (forall term, In term [mkTerm "a" "first"] ->
                resolves mirrored "oslo-terminology" "vocabularies" term = true) /\
  snd (pushDataInBulk some_client "vocabularies" "oslo-terminology"
         [mkTerm "a" "first"] (fresh mirrored)) =
  mkWorld mirrored (searches "oslo-terminology" "vocabularies" [mkTerm "a" "first"]).
Proof.
  assert (Hall : forall term, In term [mkTerm "a" "first"] ->
             resolves mirrored "oslo-terminology" "vocabularies" term = true).
  { intros term [<- | []]. reflexivity. }
  split; [exact Hall|].
  exact (plain_push_all_resolved mirrored some_client "vocabularies"
           "oslo-terminology" [mkTerm "a" "first"] Hall).
Defined.


(** ** Runs with rejections *)

Section AsyncRuns.

Context {E : Type} `{Async.Service E}.
Variable config : Config.







End AsyncRuns.

Section AsyncMethods.

Context {E : Type} `{Async.Service E}.
Variable config : Config.








(** X12. [setupElasticsearch] issues both existence checks before any
    creation request. If the first check is rejected the second is not
    issued; if either is rejected no creation is requested, not even for an
    index that was answered absent, and the promise of the method is
    rejected. When both are answered, the creation of each index is logged
    and requested exactly when its own check answered that it is absent,
    terminology first. *)
Theorem setup_checks_before_creating (e : E) :
  match Async.exists_answer e "oslo-terminology" with
  | (None, _) =>
      fst (Async.setupElasticsearch config (fresh e)) = None /\
      issued (snd (Async.setupElasticsearch config (fresh e))) =
        [Ping 30000; IndicesExists "oslo-terminology"]
  | (Some terminology, e1) =>
      match Async.exists_answer e1 "oslo-application-profiles" with
      | (None, _) =>
          fst (Async.setupElasticsearch config (fresh e)) = None /\
          issued (snd (Async.setupElasticsearch config (fresh e))) =
            [Ping 30000; IndicesExists "oslo-terminology";
             IndicesExists "oslo-application-profiles"]
      | (Some profiles, _) =>
          fst (Async.setupElasticsearch config (fresh e)) = Some tt /\
          issued (snd (Async.setupElasticsearch config (fresh e))) =
            [Ping 30000; IndicesExists "oslo-terminology";
             IndicesExists "oslo-application-profiles"]
            ++ (if terminology then []
                else [ConsoleLog [JStr "[ElasticsearchDAO]: oslo-terminology index does not exist on setup. Creating it. "];
                      IndicesCreate "oslo-terminology"])
            ++ (if profiles then []
                else [ConsoleLog [JStr "[ElasticsearchDAO]: oslo-application-profiles index does not exist on setup. Creating it. "];
                      IndicesCreate "oslo-application-profiles"])
      end
  end.
Proof.
  unfold Async.setupElasticsearch, Async.connectToElasticsearch,
    Async.checkIfIndexExists, Async.createIndex, Async.console_log,
    Async.client_ping, Async.client_indices_exists,
    Async.client_indices_create, Async.emit.
  unfold Async.bind, Async.ret. cbn [fresh engine issued].
  destruct (Async.exists_answer e "oslo-terminology") as [[terminology|] e1];
    cbn [fst snd engine issued]; [|split; reflexivity].
  destruct (Async.exists_answer e1 "oslo-application-profiles")
    as [[profiles|] e2];
    cbn [fst snd engine issued]; [|split; reflexivity].
  destruct terminology, profiles; split; reflexivity.
Qed.

End AsyncMethods.

(** ** The two embeddings agree when nothing is rejected *)

Section Settled.

Context {E : Type} `{Engine E}.
Variable config : Config.

Lemma settled_bind {A B : Type} (mA : Async.DAO E A) (m : DAO E A)
  (kA : A -> Async.DAO E B) (k : A -> DAO E B) (w : World E) :
  (forall w0, mA w0 = (Some (fst (m w0)), snd (m w0))) ->
  (forall a w0, kA a w0 = (Some (fst (k a w0)), snd (k a w0))) ->
  Async.bind mA kA w = (Some (fst (bind m k w)), snd (bind m k w)).
Proof.
  intros Hm Hk. unfold Async.bind, bind. rewrite Hm.
  destruct (m w) as [a w1]. simpl. apply Hk.
Qed.

Lemma settled_for_of
  (bodyA : ITerm -> list Json -> Async.DAO E (list Json))
  (body : ITerm -> list Json -> DAO E (list Json)) :
  (forall term acc w,
      bodyA term acc w = (Some (fst (body term acc w)), snd (body term acc w))) ->
  forall data acc w,
    Async.for_of data bodyA acc w =
    (Some (fst (for_of data body acc w)), snd (for_of data body acc w)).
Proof.
  intros Hstep data. induction data as [|term rest IH]; intros acc w; simpl.
  - reflexivity.
  - apply settled_bind; [intros w0; apply Hstep | intros acc1 w0; apply IH].
Qed.

Lemma settled_getId (uri index type : string) (client : Client) (w : World E) :
  @Async.getId E settled uri index type client w =
  (Some (fst (getId uri index type client w)),
   snd (getId uri index type client w)).
Proof. reflexivity. Qed.

(** On a service that rejects nothing and has a creation in place at once,
    the update methods and the plain push run as in the first embedding. *)
Lemma settled_methods (data : list ITerm) (client : Client)
  (type index : string) (w : World E) :
  @Async.updateVocabulary E settled config data w =
    (Some (fst (updateVocabulary config data w)),
     snd (updateVocabulary config data w)) /\
  @Async.updateApplicationProfile E settled config data w =
    (Some (fst (updateApplicationProfile config data w)),
     snd (updateApplicationProfile config data w)) /\
  @Async.pushDataInBulk E settled client type index data w =
    (Some (fst (pushDataInBulk client type index data w)),
     snd (pushDataInBulk client type index data w)).
Proof.
  split; [|split].
  - unfold Async.updateVocabulary, updateVocabulary.
    apply settled_bind; [reflexivity|]. intros c w0.
    apply settled_bind; [|reflexivity]. intros w1.
    apply settled_for_of. intros term acc w2.
    apply settled_bind; [intros w3; apply settled_getId|].
    intros id w3. now destruct (not_id id).
  - unfold Async.updateApplicationProfile, updateApplicationProfile.
    apply settled_bind; [reflexivity|]. intros c w0.
    apply settled_bind; [|reflexivity]. intros w1.
    apply settled_for_of. intros term acc w2.
    apply settled_bind; [intros w3; apply settled_getId|].
    intros id w3. now destruct (not_id id).
  - unfold Async.pushDataInBulk, pushDataInBulk.
    apply settled_bind.
    + intros w1. apply settled_for_of. intros term acc w2.
      apply settled_bind; [intros w3; apply settled_getId|].
      intros id w3. now destruct (not_id id).
    + intros bulk w1. now destruct (negb _).
Qed.

End Settled.

(** ** Runs with rejections on concrete services *)

(** The second search is rejected: the sync stops there, without a bulk
    write. *)
Example full_sync_rejected_search :
  Async.updateVocabulary cfg batch
    (fresh {| base := vocab_a_ab_a; patience := 1 |}) =
  (None,
   mkWorld {| base := vocab_a_ab_a; patience := 0 |}
     [Ping 30000; Search "oslo-terminology" "vocabularies" "a";
      Search "oslo-terminology" "vocabularies" "b"]).
Proof. reflexivity. Qed.

(** The index is absent and its creation, just requested, is not completed
    when the first search arrives: the search is rejected and nothing is
    pushed, while the promise of [pushData] is fulfilled. *)
Example pushData_search_before_creation :
  fst (Async.pushData cfg batch "oslo-terminology" "vocabularies"
         (fresh {| base := blank; patience := 5 |})) = Some tt /\
  issued (snd (Async.pushData cfg batch "oslo-terminology" "vocabularies"
                 (fresh {| base := blank; patience := 5 |}))) =
  [Ping 30000; IndicesExists "oslo-terminology";
   ConsoleLog [JStr "[ElasticsearchDAO]: oslo-terminology does not exist yet. Creating it."];
   IndicesCreate "oslo-terminology";
   Search "oslo-terminology" "vocabularies" "a"].
Proof. split; reflexivity. Qed.

